(** * HBnB service layer: entities, repositories and facade

    A shallow embedding of [part2/hbnb/app]: the entity classes of
    [app/models], the two repository implementations of
    [app/persistence/repository.py] and the facade of
    [app/services/facade.py].

    Python objects are dynamic, so an entity instance is its attribute
    dictionary (a [gmap] from column name to value) and a request payload is
    a [gmap] from key to value.  The database behind the SQLAlchemy
    repositories is a record of tables; a commit checks the constraints the
    model classes declare ([nullable=False], [unique=True], the
    [UniqueConstraint] of reviews, primary keys) and either keeps the new
    tables or raises [IntegrityError] and keeps the old ones.

    Modelling boundary: numbers are rationals (no NaN, no infinity); only
    mapped columns count as attributes of an instance (methods and
    relationship properties are not data and a payload key naming one is
    treated as unknown); SQL type coercion and foreign-key enforcement are
    not modelled; every facade call is one request, whose session is rolled
    back when its commit fails. *)

From Stdlib Require Import QArith Ascii String.
From stdpp Require Import gmap strings list fin_maps.

Open Scope string_scope.

(** ** Python values *)

Inductive pyval :=
| PNone
| PBool (b : bool)
| PNum (q : Q)
| PStr (s : string)
| PTime (t : Z)
| PList (l : list string).

Global Instance positive_eq_dec' : EqDecision positive := Pos.eq_dec.
Global Instance Q_eq_dec : EqDecision Q.
Proof. solve_decision. Defined.
Global Instance pyval_eq_dec : EqDecision pyval.
Proof. solve_decision. Defined.

(** Python exceptions that the modelled code can raise. *)
Inductive exn :=
| ValueError (msg : string)
| TypeError
| AttributeError
| IntegrityError (constraint : string).

Inductive result (A : Type) :=
| Ok (a : A)
| Raise (e : exn).
Arguments Ok {A} a.
Arguments Raise {A} e.

(** [result] is the error monad; [x ← r; k] sequences two steps and stops
    at the first exception. *)
Global Instance result_ret : MRet result := λ A a, Ok a.
Global Instance result_bind : MBind result := λ A B k r,
  match r with
  | Ok a => k a
  | Raise e => Raise e
  end.

(** [bool(x)]: Python truthiness. *)
Definition truthy (v : pyval) : bool :=
  match v with
  | PNone => false
  | PBool b => b
  | PNum q => negb (Qeq_bool q 0)
  | PStr s => negb (String.eqb s "")
  | PTime _ => true
  | PList l => match l with [] => false | _ => true end
  end.

(** [len(x)] *)
Definition py_len (v : pyval) : result nat :=
  match v with
  | PStr s => Ok (String.length s)
  | PList l => Ok (length l)
  | _ => Raise TypeError
  end.

(** A value seen as a number ([bool] is a subclass of [int]). *)
Definition num_of (v : pyval) : option Q :=
  match v with
  | PBool b => Some (if b then 1%Q else 0%Q)
  | PNum q => Some q
  | _ => None
  end.

(** [x < y] against a numeric literal [y]. *)
Definition py_lt (v : pyval) (y : Q) : result bool :=
  match num_of v with
  | Some q => Ok (negb (Qle_bool y q))
  | None => Raise TypeError
  end.

(** [x > y] against a numeric literal [y]. *)
Definition py_gt (v : pyval) (y : Q) : result bool :=
  match num_of v with
  | Some q => Ok (negb (Qle_bool q y))
  | None => Raise TypeError
  end.

(** [x == y] *)
Definition py_eqb (x y : pyval) : bool :=
  match num_of x, num_of y with
  | Some a, Some b => Qeq_bool a b
  | None, None => bool_decide (x = y)
  | _, _ => false
  end.

(** ** Instances and payloads *)

(** An instance of a model class: its column attributes. *)
Abbreviation obj := (gmap string pyval).
(** A request payload (a Python [dict] with string keys). *)
Abbreviation dict := (gmap string pyval).

(** [getattr(o, k)]; a column never assigned reads as [None]. *)
Definition getattr (o : obj) (k : string) : pyval := default PNone (o !! k).

(** [data.get(k)] and [data.get(k, d)] *)
Definition dict_get (data : dict) (k : string) : pyval := default PNone (data !! k).
Definition dict_get_default (data : dict) (k : string) (d : pyval) : pyval :=
  default d (data !! k).

(** [k in data] *)
Definition dict_has (data : dict) (k : string) : bool := bool_decide (is_Some (data !! k)).

(** ** Regular expressions for [re.match]

    A matcher by derivatives, enough for the pattern of
    [User._is_valid_email]. *)

Inductive re :=
| ReEmpty
| ReEps
| ReCls (p : ascii → bool)
| ReCat (r1 r2 : re)
| ReAlt (r1 r2 : re)
| ReStar (r : re).

Fixpoint nullable (r : re) : bool :=
  match r with
  | ReEmpty => false
  | ReEps => true
  | ReCls _ => false
  | ReCat r1 r2 => nullable r1 && nullable r2
  | ReAlt r1 r2 => nullable r1 || nullable r2
  | ReStar _ => true
  end.

Fixpoint deriv (c : ascii) (r : re) : re :=
  match r with
  | ReEmpty => ReEmpty
  | ReEps => ReEmpty
  | ReCls p => if p c then ReEps else ReEmpty
  | ReCat r1 r2 =>
      if nullable r1
      then ReAlt (ReCat (deriv c r1) r2) (deriv c r2)
      else ReCat (deriv c r1) r2
  | ReAlt r1 r2 => ReAlt (deriv c r1) (deriv c r2)
  | ReStar r1 => ReCat (deriv c r1) (ReStar r1)
  end.

Fixpoint fullmatch (r : re) (s : string) : bool :=
  match s with
  | EmptyString => nullable r
  | String c s' => fullmatch (deriv c r) s'
  end.

(** [r+] *)
Definition RePlus (r : re) : re := ReCat r (ReStar r).

Definition in_range (lo hi c : ascii) : bool :=
  (N_of_ascii lo <=? N_of_ascii c)%N && (N_of_ascii c <=? N_of_ascii hi)%N.
Definition is_letter (c : ascii) : bool :=
  in_range "a"%char "z"%char c || in_range "A"%char "Z"%char c.
Definition is_alnum (c : ascii) : bool := is_letter c || in_range "0"%char "9"%char c.
Definition one_of (cs : string) (c : ascii) : bool :=
  existsb (Ascii.eqb c) (list_ascii_of_string cs).

(** [^[a-zA-Z0-9._%+-]+@[a-zA-Z0-9.-]+\.[a-zA-Z]{2,}$] *)
Definition email_pattern : re :=
  ReCat (RePlus (ReCls (λ c, is_alnum c || one_of "._%+-" c)))
 (ReCat (ReCls (Ascii.eqb "@"%char))
 (ReCat (RePlus (ReCls (λ c, is_alnum c || one_of ".-" c)))
 (ReCat (ReCls (Ascii.eqb "."%char))
 (ReCat (ReCls is_letter) (RePlus (ReCls is_letter)))))).

Definition newline : ascii := ascii_of_nat 10.

(** The string without its last character when that is a newline: [$]
    also matches just before a newline that ends the string. *)
Fixpoint chop_newline (s : string) : option string :=
  match s with
  | EmptyString => None
  | String c EmptyString => if Ascii.eqb c newline then Some EmptyString else None
  | String c s' => String c <$> chop_newline s'
  end.

(** [re.match(pattern, s) is not None] for a pattern anchored by [^] and [$]. *)
Definition re_match_anchored (r : re) (s : string) : bool :=
  fullmatch r s || from_option (fullmatch r) false (chop_newline s).

(** ** Entity classes ([app/models]) *)

(** The mapped classes, named by their [__tablename__]. *)
Inductive tablename := users | places | reviews | amenities.

Global Instance tablename_eq_dec : EqDecision tablename.
Proof. solve_decision. Defined.

(** Columns of [BaseModel] and of each class. *)
Definition base_columns : list string := ["id"; "created_at"; "updated_at"].

Definition columns (m : tablename) : list string :=
  base_columns ++
  match m with
  | users => ["first_name"; "last_name"; "email"; "password"; "is_admin"]
  | places => ["title"; "description"; "price"; "latitude"; "longitude"; "owner_id"]
  | reviews => ["text"; "rating"; "place_id"; "user_id"]
  | amenities => ["name"; "description"]
  end.

(** [hasattr(self, key)] *)
Definition hasattr (m : tablename) (key : string) : bool :=
  bool_decide (key ∈ columns m).

(** [setattr(self, key, value)] *)
Definition setattr (self : obj) (key : string) (value : pyval) : obj :=
  <[key := value]> self.

(** [x is None] *)
Definition is_none (v : pyval) : bool :=
  match v with PNone => true | _ => false end.

(** [raise ValueError(msg)] when the condition holds. *)
Definition raise_if (c : bool) (msg : string) : result unit :=
  if c then Raise (ValueError msg) else Ok ().

(** [not v or len(v) > n] *)
Definition missing_or_longer (v : pyval) (n : nat) : result bool :=
  if negb (truthy v) then Ok true
  else len ← py_len v; Ok (bool_decide (n < len)).

(** [v is not None and (v < lo or v > hi)] *)
Definition out_of_range (v : pyval) (lo hi : Q) : result bool :=
  if is_none v then Ok false
  else
    below ← py_lt v lo;
    if below : bool then Ok true else py_gt v hi.

Module BaseModel.

(** [BaseModel.__init__]: a fresh id and the two timestamps; [uuid] is the
    value of [uuid.uuid4()] and [now] the clock reading of the call. *)
Definition __init__ (uuid : string) (now : Z) : obj :=
  <["updated_at" := PTime now]>
    (<["created_at" := PTime now]> (<["id" := PStr uuid]> ∅)).

(** The loop of [BaseModel.update] (and of the facade's updates):
    [for key, value in data.items(): if hasattr(self, key): setattr(...)]. *)
Definition set_fields (m : tablename) (self : obj) (data : dict) : obj :=
  map_fold (λ key value o, if hasattr m key then setattr o key value else o)
           self data.

End BaseModel.

Module User.
Section WithBcrypt.
(** [bcrypt.generate_password_hash(password).decode('utf-8')], the hashing
    collaborator of [app/extensions.py], taken as a function that always
    returns a digest. *)
Variable generate_password_hash : pyval → string.

Definition _is_valid_email (email : pyval) : result bool :=
  match email with
  | PStr s => Ok (re_match_anchored email_pattern s)
  | _ => Raise TypeError
  end.

Definition _validate (self : obj) : result unit :=
  bad ← missing_or_longer (getattr self "first_name") 50;
  _ ← raise_if bad "First name is required and must be <= 50 characters";
  bad ← missing_or_longer (getattr self "last_name") 50;
  _ ← raise_if bad "Last name is required and must be <= 50 characters";
  good ← _is_valid_email (getattr self "email");
  raise_if (negb good) "Invalid email format".

Definition hash_password (self : obj) (password : pyval) : obj :=
  setattr self "password" (PStr (generate_password_hash password)).

Definition __init__ (first_name last_name email password is_admin : pyval)
    (uuid : string) (now : Z) : result obj :=
  let self := BaseModel.__init__ uuid now in
  let self := setattr self "first_name" first_name in
  let self := setattr self "last_name" last_name in
  let self := setattr self "email" email in
  let self := setattr self "is_admin" is_admin in
  let self := if truthy password then hash_password self password
              else setattr self "password" (PStr "") in
  _ ← _validate self; Ok self.

End WithBcrypt.

Section WithIsoformat.
(** [datetime.isoformat] *)
Variable isoformat : Z → string.

(** [t.isoformat() if t else None] *)
Definition iso_or_none (t : pyval) : result pyval :=
  if truthy t then
    match t with
    | PTime z => Ok (PStr (isoformat z))
    | _ => Raise AttributeError
    end
  else Ok PNone.

Definition to_dict (self : obj) : result dict :=
  created ← iso_or_none (getattr self "created_at");
  updated ← iso_or_none (getattr self "updated_at");
  Ok (<["updated_at" := updated]>
     (<["created_at" := created]>
     (<["is_admin" := getattr self "is_admin"]>
     (<["email" := getattr self "email"]>
     (<["last_name" := getattr self "last_name"]>
     (<["first_name" := getattr self "first_name"]>
     (<["id" := getattr self "id"]> ∅))))))).

End WithIsoformat.
End User.

Module Place.

Definition _validate (self : obj) : result unit :=
  bad ← missing_or_longer (getattr self "title") 100;
  _ ← raise_if bad "Title is required and must be <= 100 characters";
  bad ← (if is_none (getattr self "price") then Ok true
         else py_lt (getattr self "price") 0);
  _ ← raise_if bad "Price must be a positive value";
  bad ← out_of_range (getattr self "latitude") (-90) 90;
  _ ← raise_if bad "Latitude must be between -90 and 90";
  bad ← out_of_range (getattr self "longitude") (-180) 180;
  raise_if bad "Longitude must be between -180 and 180".

(** [owner] is the [User] instance when one is passed, [owner_id] the
    keyword used otherwise. *)
Definition __init__ (title description price latitude longitude : pyval)
    (owner : option obj) (owner_id : pyval) (uuid : string) (now : Z) : result obj :=
  let self := BaseModel.__init__ uuid now in
  let self := setattr self "title" title in
  let self := setattr self "description" description in
  let self := setattr self "price" price in
  let self := setattr self "latitude" latitude in
  let self := setattr self "longitude" longitude in
  let self := match owner with
              | Some o => setattr self "owner_id" (getattr o "id")
              | None => if truthy owner_id then setattr self "owner_id" owner_id
                        else self
              end in
  _ ← _validate self; Ok self.

End Place.

Module Review.

Definition _validate (self : obj) : result unit :=
  _ ← raise_if (negb (truthy (getattr self "text"))) "Review text is required";
  bad ← (if is_none (getattr self "rating") then Ok true
         else below ← py_lt (getattr self "rating") 1;
              if below : bool then Ok true else py_gt (getattr self "rating") 5);
  _ ← raise_if bad "Rating must be between 1 and 5";
  _ ← raise_if (negb (truthy (getattr self "place_id"))) "Place is required";
  raise_if (negb (truthy (getattr self "user_id"))) "User is required".

Definition __init__ (text rating : pyval) (place user : option obj)
    (place_id user_id : pyval) (uuid : string) (now : Z) : result obj :=
  let self := BaseModel.__init__ uuid now in
  let self := setattr self "text" text in
  let self := setattr self "rating" rating in
  let self := match place with
              | Some p => setattr self "place_id" (getattr p "id")
              | None => if truthy place_id then setattr self "place_id" place_id
                        else self
              end in
  let self := match user with
              | Some u => setattr self "user_id" (getattr u "id")
              | None => if truthy user_id then setattr self "user_id" user_id
                        else self
              end in
  _ ← _validate self; Ok self.

End Review.

Module Amenity.

Definition _validate (self : obj) : result unit :=
  bad ← missing_or_longer (getattr self "name") 50;
  raise_if bad "Amenity name is required and must be <= 50 characters".

Definition __init__ (name description : pyval) (uuid : string) (now : Z) : result obj :=
  let self := BaseModel.__init__ uuid now in
  let self := setattr self "name" name in
  let self := setattr self "description" description in
  _ ← _validate self; Ok self.

End Amenity.

(** ** The database behind [db.session] *)

(** One list of rows per mapped class, in insertion order, and the rows of
    the association table [place_amenity] as (place id, amenity id). *)
Record db := mk_db {
  users_rows : list obj;
  places_rows : list obj;
  reviews_rows : list obj;
  amenities_rows : list obj;
  place_amenity : list (pyval * pyval)
}.

Definition empty_db : db := mk_db [] [] [] [] [].

Definition table (m : tablename) (d : db) : list obj :=
  match m with
  | users => users_rows d
  | places => places_rows d
  | reviews => reviews_rows d
  | amenities => amenities_rows d
  end.

Definition set_table (m : tablename) (rows : list obj) (d : db) : db :=
  match m with
  | users => mk_db rows (places_rows d) (reviews_rows d) (amenities_rows d) (place_amenity d)
  | places => mk_db (users_rows d) rows (reviews_rows d) (amenities_rows d) (place_amenity d)
  | reviews => mk_db (users_rows d) (places_rows d) rows (amenities_rows d) (place_amenity d)
  | amenities => mk_db (users_rows d) (places_rows d) (reviews_rows d) rows (place_amenity d)
  end.

Definition set_place_amenity (pa : list (pyval * pyval)) (d : db) : db :=
  mk_db (users_rows d) (places_rows d) (reviews_rows d) (amenities_rows d) pa.

Definition tablename_str (m : tablename) : string :=
  match m with
  | users => "users"
  | places => "places"
  | reviews => "reviews"
  | amenities => "amenities"
  end.

(** Columns declared [nullable=False] (and the primary key). *)
Definition not_null_columns (m : tablename) : list string :=
  "id" ::
  match m with
  | users => ["first_name"; "last_name"; "email"; "password"]
  | places => ["title"; "price"; "owner_id"]
  | reviews => ["text"; "rating"; "place_id"; "user_id"]
  | amenities => ["name"]
  end.

(** The primary key, the columns declared [unique=True] and the
    [UniqueConstraint('user_id', 'place_id')] of reviews. *)
Definition unique_constraints (m : tablename) : list (list string) :=
  ["id"] ::
  match m with
  | users => [["email"]]
  | places => []
  | reviews => [["user_id"; "place_id"]]
  | amenities => [["name"]]
  end.

(** Two rows agree on every column of a key. *)
Definition same_key (ks : list string) (a b : obj) : bool :=
  forallb (λ k, py_eqb (getattr a k) (getattr b k)) ks.

(** The constraint that [row] would break next to the rows [others], if any. *)
Definition integrity_violation (m : tablename) (others : list obj) (row : obj)
    : option string :=
  match find (λ c, is_none (getattr row c)) (not_null_columns m) with
  | Some c =>
      Some ("NOT NULL constraint failed: " +:+ tablename_str m +:+ "." +:+ c)
  | None =>
      match find (λ ks, existsb (same_key ks row) others) (unique_constraints m) with
      | Some ks =>
          Some ("UNIQUE constraint failed: " +:+ tablename_str m +:+ "."
                +:+ String.concat ", " ks)
      | None => None
      end
  end.

(** [db.session.add(obj); db.session.commit()] for a new instance: an
    INSERT, refused with the old tables kept when a constraint fails. *)
Definition session_insert (m : tablename) (o : obj) (d : db) : db * result unit :=
  match integrity_violation m (table m d) o with
  | Some c => (d, Raise (IntegrityError c))
  | None => (set_table m (table m d ++ [o]) d, Ok ())
  end.

(** The row is the one loaded as [old]. *)
Definition is_row (old o : obj) : bool := py_eqb (getattr o "id") (getattr old "id").

(** [db.session.commit()] for an instance loaded as [old] and modified to
    [new]: no UPDATE when nothing changed; otherwise an UPDATE of its row,
    where [updated_at] takes its [onupdate=datetime.utcnow] value unless the
    instance assigned a new one itself. *)
Definition session_update (m : tablename) (now : Z) (old new : obj) (d : db)
    : db * result obj :=
  if decide (new = old) then (d, Ok new)
  else
    let new' := if decide (new !! "updated_at" = old !! "updated_at")
                then setattr new "updated_at" (PTime now) else new in
    match integrity_violation m (filter (λ o, is_row old o = false) (table m d)) new' with
    | Some c => (d, Raise (IntegrityError c))
    | None =>
        (set_table m ((λ o, if is_row old o then new' else o) <$> table m d) d,
         Ok new')
    end.

(** Rows of [ref] whose column [fk] refers to [o]. *)
Definition referring (ref : tablename) (fk : string) (o : obj) (d : db) : list obj :=
  filter (λ r, py_eqb (getattr r fk) (getattr o "id") = true) (table ref d).

Definition remove_row (m : tablename) (o : obj) (d : db) : db :=
  set_table m (filter (λ r, is_row o r = false) (table m d)) d.

(** [db.session.delete(obj); db.session.commit()].  The relationships decide
    what goes with the row: [Place.reviews] has [cascade='all,
    delete-orphan'], so the reviews of a place are deleted with it; rows of
    the [secondary] table are deleted with either end; [User.places] and
    [User.reviews] have no delete cascade, so the session sets the foreign
    key of the children to NULL, which their [nullable=False] refuses. *)
Definition session_delete (m : tablename) (o : obj) (d : db) : db * result unit :=
  match m with
  | users =>
      match referring places "owner_id" o d, referring reviews "user_id" o d with
      | [], [] => (remove_row users o d, Ok ())
      | _ :: _, _ => (d, Raise (IntegrityError "NOT NULL constraint failed: places.owner_id"))
      | [], _ :: _ => (d, Raise (IntegrityError "NOT NULL constraint failed: reviews.user_id"))
      end
  | places =>
      let d1 := set_table reviews
                  (filter (λ r, py_eqb (getattr r "place_id") (getattr o "id") = false)
                          (table reviews d)) d in
      let d2 := set_place_amenity
                  (filter (λ pa, py_eqb pa.1 (getattr o "id") = false) (place_amenity d1)) d1 in
      (remove_row places o d2, Ok ())
  | reviews => (remove_row reviews o d, Ok ())
  | amenities =>
      let d1 := set_place_amenity
                  (filter (λ pa, py_eqb pa.2 (getattr o "id") = false) (place_amenity d)) d in
      (remove_row amenities o d1, Ok ())
  end.

Module SQLAlchemyRepository.

Definition add (m : tablename) (o : obj) (d : db) : db * result unit :=
  session_insert m o d.

(** [self.model.query.get(obj_id)] *)
Definition get (m : tablename) (d : db) (obj_id : pyval) : option obj :=
  find (λ o, py_eqb (getattr o "id") obj_id) (table m d).

Definition get_all (m : tablename) (d : db) : list obj := table m d.

Definition update (m : tablename) (now : Z) (obj_id : pyval) (data : dict) (d : db)
    : db * result (option obj) :=
  match get m d obj_id with
  | Some o =>
      match session_update m now o (BaseModel.set_fields m o data) d with
      | (d', Ok o') => (d', Ok (Some o'))
      | (d', Raise e) => (d', Raise e)
      end
  | None => (d, Ok None)
  end.

Definition delete (m : tablename) (obj_id : pyval) (d : db) : db * result bool :=
  match get m d obj_id with
  | Some o =>
      match session_delete m o d with
      | (d', Ok _) => (d', Ok true)
      | (d', Raise e) => (d', Raise e)
      end
  | None => (d, Ok false)
  end.

(** [query.filter_by] on one attribute, then [first()] *)
Definition get_by_attribute (m : tablename) (d : db) (attr_name : string)
    (attr_value : pyval) : option obj :=
  find (λ o, py_eqb (getattr o attr_name) attr_value) (table m d).

(** [query.filter_by] on one attribute, then [all()] *)
Definition get_all_by_attribute (m : tablename) (d : db) (attr_name : string)
    (attr_value : pyval) : list obj :=
  filter (λ o, py_eqb (getattr o attr_name) attr_value = true) (table m d).

End SQLAlchemyRepository.

(** [UserRepository], [ReviewRepository], [AmenityRepository] *)
Definition get_user_by_email (d : db) (email : pyval) : option obj :=
  SQLAlchemyRepository.get_by_attribute users d "email" email.
Definition get_reviews_by_place (d : db) (place_id : pyval) : list obj :=
  SQLAlchemyRepository.get_all_by_attribute reviews d "place_id" place_id.
Definition get_reviews_by_user (d : db) (user_id : pyval) : list obj :=
  SQLAlchemyRepository.get_all_by_attribute reviews d "user_id" user_id.
Definition get_amenity_by_name (d : db) (name : pyval) : option obj :=
  SQLAlchemyRepository.get_by_attribute amenities d "name" name.

(** [BaseModel.save]: refresh [updated_at], then add to the session and
    commit.  [loaded] is the state the session loaded the instance with,
    [None] for an instance the session has not seen. *)
Definition save (m : tablename) (now : Z) (loaded : option obj) (self : obj) (d : db)
    : db * result obj :=
  let self := setattr self "updated_at" (PTime now) in
  match loaded with
  | Some old => session_update m now old self d
  | None =>
      match session_insert m self d with
      | (d', Ok _) => (d', Ok self)
      | (d', Raise e) => (d', Raise e)
      end
  end.

(** [BaseModel.update] *)
Definition BaseModel_update (m : tablename) (now : Z) (loaded : option obj)
    (self : obj) (data : dict) (d : db) : db * result obj :=
  save m now loaded (BaseModel.set_fields m self data) d.

Module InMemoryRepository.

(** [self._storage]: a Python [dict] from id to instance, in insertion order. *)
Abbreviation storage := (list (pyval * obj)).

(** [storage[k] = o] *)
Fixpoint dict_set (st : storage) (k : pyval) (o : obj) : storage :=
  match st with
  | [] => [(k, o)]
  | (k', o') :: st' =>
      if py_eqb k' k then (k', o) :: st' else (k', o') :: dict_set st' k o
  end.

Definition add (st : storage) (o : obj) : storage := dict_set st (getattr o "id") o.

Definition get (st : storage) (obj_id : pyval) : option obj :=
  snd <$> find (λ kv, py_eqb kv.1 obj_id) st.

Definition get_all (st : storage) : list obj := snd <$> st.

(** [obj.update(data)] changes the stored instance in place and saves it
    through the session, so the call also reaches the database; the session
    knows the instance when a row has its primary key.  When the commit
    raises, the instance has been changed already. *)
Definition update (m : tablename) (now : Z) (obj_id : pyval) (data : dict)
    (st : storage) (d : db) : storage * db * result (option obj) :=
  match get st obj_id with
  | Some o =>
      let o1 := BaseModel.set_fields m o data in
      match BaseModel_update m now (SQLAlchemyRepository.get m d (getattr o "id")) o data d with
      | (d', Ok o') => (dict_set st obj_id o', d', Ok (Some o'))
      | (d', Raise e) =>
          (dict_set st obj_id (setattr o1 "updated_at" (PTime now)), d', Raise e)
      end
  | None => (st, d, Ok None)
  end.

Definition delete (st : storage) (obj_id : pyval) : storage * bool :=
  if existsb (λ kv, py_eqb kv.1 obj_id) st
  then (filter (λ kv, py_eqb kv.1 obj_id = false) st, true)
  else (st, false).

Definition get_by_attribute (st : storage) (attr_name : string) (attr_value : pyval)
    : option obj :=
  find (λ o, py_eqb (getattr o attr_name) attr_value) (get_all st).

Definition get_all_by_attribute (st : storage) (attr_name : string)
    (attr_value : pyval) : list obj :=
  filter (λ o, py_eqb (getattr o attr_name) attr_value = true) (get_all st).

End InMemoryRepository.

(** ** The facade ([app/services/facade.py]) *)

(** [for x in v]: the elements a [for] loop sees. *)
Definition py_iter (v : pyval) : result (list pyval) :=
  match v with
  | PList l => Ok (PStr <$> l)
  | PStr s => Ok ((λ c, PStr (String c EmptyString)) <$> list_ascii_of_string s)
  | _ => Raise TypeError
  end.

(** [Place.add_amenity] on the collection [place.amenities] *)
Definition add_amenity (collection : list obj) (amenity : obj) : list obj :=
  if bool_decide (amenity ∈ collection) then collection else collection ++ [amenity].

Module HBnBFacade.
Section WithBcrypt.
Variable generate_password_hash : pyval → string.

(** *** Users *)

Definition create_user (user_data : dict) (uuid : string) (now : Z) (d : db)
    : db * result obj :=
  match SQLAlchemyRepository.get_by_attribute users d "email" (dict_get user_data "email") with
  | Some _ => (d, Raise (ValueError "Email already registered"))
  | None =>
      match User.__init__ generate_password_hash
              (dict_get user_data "first_name")
              (dict_get user_data "last_name")
              (dict_get user_data "email")
              (dict_get_default user_data "password" (PStr ""))
              (dict_get_default user_data "is_admin" (PBool false))
              uuid now with
      | Raise e => (d, Raise e)
      | Ok user =>
          match SQLAlchemyRepository.add users user d with
          | (d', Ok _) => (d', Ok user)
          | (d', Raise e) => (d', Raise e)
          end
      end
  end.

Definition get_user (d : db) (user_id : pyval) : option obj :=
  SQLAlchemyRepository.get users d user_id.

(** The test [if 'email' in user_data and user_data['email'] != user.email]
    followed by the lookup: the email is supplied, differs from the current
    one, and a row holds it. *)
Definition email_taken (d : db) (user : obj) (user_data : dict) : bool :=
  dict_has user_data "email"
  && negb (py_eqb (dict_get user_data "email") (getattr user "email"))
  && bool_decide (is_Some (SQLAlchemyRepository.get_by_attribute users d "email"
                             (dict_get user_data "email"))).

(** The instance after the password step and the attribute loop. *)
Definition apply_user_data (user : obj) (user_data : dict) : obj :=
  let user1 := if dict_has user_data "password"
               then User.hash_password generate_password_hash user
                      (dict_get user_data "password")
               else user in
  BaseModel.set_fields users user1 (delete "password" user_data).

Definition update_user (user_id : pyval) (user_data : dict) (now : Z) (d : db)
    : db * result (option obj) :=
  match SQLAlchemyRepository.get users d user_id with
  | None => (d, Ok None)
  | Some user =>
      if email_taken d user user_data
      then (d, Raise (ValueError "Email already registered"))
      else
        match save users now (Some user) (apply_user_data user user_data) d with
        | (d', Ok user') => (d', Ok (Some user'))
        | (d', Raise e) => (d', Raise e)
        end
  end.

End WithBcrypt.

Definition delete_user (user_id : pyval) (d : db) : db * result bool :=
  SQLAlchemyRepository.delete users user_id d.

(** *** Places *)

(** The loop over [amenity_ids]: every id that names an amenity adds it. *)
Definition collect_amenities (d : db) (amenity_ids : list pyval) : list obj :=
  foldl (λ collection amenity_id,
           match SQLAlchemyRepository.get amenities d amenity_id with
           | Some amenity => add_amenity collection amenity
           | None => collection
           end) [] amenity_ids.

(** [self.place_repo.add(place)]: the row of the place and one row of
    [place_amenity] for each amenity of its collection. *)
Definition add_place (place : obj) (collection : list obj) (d : db) : db * result unit :=
  match SQLAlchemyRepository.add places place d with
  | (d', Ok _) =>
      (set_place_amenity
         (place_amenity d' ++ ((λ a, (getattr place "id", getattr a "id")) <$> collection)) d',
       Ok ())
  | (d', Raise e) => (d', Raise e)
  end.

Definition create_place (place_data : dict) (uuid : string) (now : Z) (d : db)
    : db * result obj :=
  match SQLAlchemyRepository.get users d (dict_get place_data "owner_id") with
  | None => (d, Raise (ValueError "Owner not found"))
  | Some owner =>
      match Place.__init__ (dict_get place_data "title")
              (dict_get_default place_data "description" (PStr ""))
              (dict_get place_data "price")
              (dict_get place_data "latitude")
              (dict_get place_data "longitude")
              (Some owner) PNone uuid now with
      | Raise e => (d, Raise e)
      | Ok place =>
          match py_iter (dict_get_default place_data "amenities" (PList [])) with
          | Raise e => (d, Raise e)
          | Ok amenity_ids =>
              match add_place place (collect_amenities d amenity_ids) d with
              | (d', Ok _) => (d', Ok place)
              | (d', Raise e) => (d', Raise e)
              end
          end
      end
  end.

Definition get_place (d : db) (place_id : pyval) : option obj :=
  SQLAlchemyRepository.get places d place_id.

Definition delete_place (place_id : pyval) (d : db) : db * result bool :=
  SQLAlchemyRepository.delete places place_id d.

(** *** Reviews *)

Definition create_review (review_data : dict) (uuid : string) (now : Z) (d : db)
    : db * result obj :=
  let place_id := dict_get review_data "place_id" in
  let user_id := dict_get review_data "user_id" in
  match SQLAlchemyRepository.get places d place_id,
        SQLAlchemyRepository.get users d user_id with
  | None, _ => (d, Raise (ValueError "Place not found"))
  | Some _, None => (d, Raise (ValueError "User not found"))
  | Some place, Some user =>
      if py_eqb (getattr place "owner_id") user_id
      then (d, Raise (ValueError "Cannot review your own place"))
      else
        match Review.__init__ (dict_get review_data "text")
                (dict_get review_data "rating")
                (Some place) (Some user) PNone PNone uuid now with
        | Raise e => (d, Raise e)
        | Ok review =>
            match SQLAlchemyRepository.add reviews review d with
            | (d', Ok _) => (d', Ok review)
            | (d', Raise e) => (d', Raise e)
            end
        end
  end.

Definition get_review (d : db) (review_id : pyval) : option obj :=
  SQLAlchemyRepository.get reviews d review_id.

Definition get_reviews_by_place (d : db) (place_id : pyval) : list obj :=
  get_reviews_by_place d place_id.

(** [for key in ['text', 'rating']: if key in review_data: setattr(...)] *)
Definition apply_review_data (review : obj) (review_data : dict) : obj :=
  foldl (λ r key, if dict_has review_data key
                  then setattr r key (dict_get review_data key) else r)
        review ["text"; "rating"].

Definition update_review (review_id : pyval) (review_data : dict) (now : Z) (d : db)
    : db * result (option obj) :=
  match SQLAlchemyRepository.get reviews d review_id with
  | None => (d, Ok None)
  | Some review =>
      match save reviews now (Some review) (apply_review_data review review_data) d with
      | (d', Ok review') => (d', Ok (Some review'))
      | (d', Raise e) => (d', Raise e)
      end
  end.

Definition delete_review (review_id : pyval) (d : db) : db * result bool :=
  SQLAlchemyRepository.delete reviews review_id d.

(** *** Amenities *)

Definition create_amenity (amenity_data : dict) (uuid : string) (now : Z) (d : db)
    : db * result obj :=
  match Amenity.__init__ (dict_get amenity_data "name")
          (dict_get_default amenity_data "description" (PStr "")) uuid now with
  | Raise e => (d, Raise e)
  | Ok amenity =>
      match SQLAlchemyRepository.add amenities amenity d with
      | (d', Ok _) => (d', Ok amenity)
      | (d', Raise e) => (d', Raise e)
      end
  end.

Definition get_amenity (d : db) (amenity_id : pyval) : option obj :=
  SQLAlchemyRepository.get amenities d amenity_id.

Definition update_amenity (amenity_id : pyval) (amenity_data : dict) (now : Z) (d : db)
    : db * result (option obj) :=
  match SQLAlchemyRepository.get amenities d amenity_id with
  | None => (d, Ok None)
  | Some amenity =>
      match save amenities now (Some amenity)
              (BaseModel.set_fields amenities amenity amenity_data) d with
      | (d', Ok amenity') => (d', Ok (Some amenity'))
      | (d', Raise e) => (d', Raise e)
      end
  end.

Definition delete_amenity (amenity_id : pyval) (d : db) : db * result bool :=
  SQLAlchemyRepository.delete amenities amenity_id d.

End HBnBFacade.

(** ** The review endpoint ([app/api/v1/reviews.py]) *)

(** What a request ends in: the created entity with status 201, an
    [api.abort(status, message)], or an exception nobody caught. *)
Inductive response :=
| Created (o : obj)
| Abort (status : nat) (message : string)
| Uncaught (e : exn).

(** [sub in s] on strings *)
Fixpoint contains (sub s : string) : bool :=
  String.prefix sub s ||
  match s with
  | EmptyString => false
  | String _ s' => contains sub s'
  end.

(** [ReviewList.post]; [current_user_id] is the identity of the token. *)
Definition ReviewList_post (payload : dict) (current_user_id : pyval)
    (uuid : string) (now : Z) (d : db) : db * response :=
  let review_data := <["user_id" := current_user_id]> payload in
  match HBnBFacade.get_place d (dict_get review_data "place_id") with
  | None => (d, Abort 404 "Place not found")
  | Some place =>
      if py_eqb (getattr place "owner_id") current_user_id
      then (d, Abort 400 "You cannot review your own place")
      else if existsb (λ review, py_eqb (getattr review "user_id") current_user_id)
                (HBnBFacade.get_reviews_by_place d (dict_get review_data "place_id"))
      then (d, Abort 400 "You have already reviewed this place")
      else
        match HBnBFacade.create_review review_data uuid now d with
        | (d', Ok review) => (d', Created review)
        | (d', Raise (ValueError msg)) =>
            if contains "not found" msg then (d', Abort 404 msg) else (d', Abort 400 msg)
        | (d', Raise e) => (d', Uncaught e)
        end
  end.

(** ** Vocabulary of the properties *)

(** A sequence of [create_user] calls, each with its payload, the id it
    draws and its clock reading. *)
Definition create_users (generate_password_hash : pyval → string)
    (calls : list (dict * string * Z)) (d : db) : db :=
  foldl (λ d '(user_data, uuid, now),
           (HBnBFacade.create_user generate_password_hash user_data uuid now d).1)
        d calls.





(** A scenario in the manner of [tests/test_services/test_facade.py]: two
    users, a place of the first, a review of it by the second, an amenity. *)
Definition sample_hash (password : pyval) : string :=
  match password with
  | PStr s => "$2b$12$" +:+ s
  | _ => "$2b$12$"
  end.

Definition john_data : dict :=
  <["first_name" := PStr "John"]> (<["last_name" := PStr "Doe"]>
  (<["email" := PStr "john@example.com"]> (<["password" := PStr "password123"]> ∅))).

Definition jane_data : dict :=
  <["first_name" := PStr "Jane"]> (<["last_name" := PStr "Smith"]>
  (<["email" := PStr "jane@example.com"]> (<["password" := PStr "password456"]> ∅))).

Definition beach_house_data : dict :=
  <["title" := PStr "Beach House"]> (<["price" := PNum 150]>
  (<["latitude" := PNum (257617 # 10000)]> (<["longitude" := PNum (-801918 # 10000)]>
  (<["owner_id" := PStr "u1"]> ∅)))).

Definition review_data_of (user_id text : string) (rating : Q) : dict :=
  <["text" := PStr text]> (<["rating" := PNum rating]>
  (<["user_id" := PStr user_id]> (<["place_id" := PStr "p1"]> ∅))).

Definition wifi_data : dict :=
  <["name" := PStr "WiFi"]> (<["description" := PStr "Fast internet"]> ∅).

Definition db_john : db :=
  (HBnBFacade.create_user sample_hash john_data "u1" 10 empty_db).1.
Definition db_users : db :=
  (HBnBFacade.create_user sample_hash jane_data "u2" 11 db_john).1.
Definition db_place : db :=
  (HBnBFacade.create_place beach_house_data "p1" 12 db_users).1.
Definition db_review : db :=
  (HBnBFacade.create_review (review_data_of "u2" "Great place!" 5) "r1" 13 db_place).1.
Definition db_wifi : db :=
  (HBnBFacade.create_amenity wifi_data "a1" 14 db_review).1.


(** The [updated_at] of the entity a repository update returned. *)
Definition updated_at_of (r : result (option obj)) : option pyval :=
  match r with
  | Ok (Some o) => Some (getattr o "updated_at")
  | _ => None
  end.

(** The stored user of John, and an in-memory repository holding it. *)
Definition john_row : obj :=
  default ∅ (SQLAlchemyRepository.get users db_users (PStr "u1")).

(** Every message [create_review] raises a [ValueError] with: the three
    guards of the facade and the four of [Review._validate]. *)
Definition create_review_errors : list string :=
  ["Place not found"; "User not found"; "Cannot review your own place";
   "Review text is required"; "Rating must be between 1 and 5";
   "Place is required"; "User is required"].

(** The value is a [datetime] or is falsy. *)
Definition datetime_or_falsy (v : pyval) : Prop :=
  truthy v = false ∨ ∃ t, v = PTime t.


(** * Properties *)

(** ** The definitions on small inputs *)

Example py_eqb_bool_int : py_eqb (PBool true) (PNum 1) = true.
Proof. reflexivity. Qed.

Example getattr_demo :
  getattr (<["email" := PStr "a@b.cd"]> (<["id" := PStr "u1"]> ∅)) "email" = PStr "a@b.cd".
Proof. reflexivity. Qed.

Example dict_has_demo :
  dict_has (<["email" := PStr "a@b.cd"]> ∅) "password" = false.
Proof. reflexivity. Qed.

Example email_ok : re_match_anchored email_pattern "john.doe+x@example.co.uk" = true.
Proof. reflexivity. Qed.

Example email_short_tld : re_match_anchored email_pattern "a@b.c" = false.
Proof. reflexivity. Qed.

Example email_no_at : re_match_anchored email_pattern "invalid-email" = false.
Proof. reflexivity. Qed.

Example email_two_at : re_match_anchored email_pattern "a@b@c.de" = false.
Proof. reflexivity. Qed.

Example place_latitude_91 :
  Place.__init__ (PStr "Beach House") (PStr "") (PNum 150) (PNum 91) (PNum 0)
                 (Some (<["id" := PStr "u1"]> ∅)) PNone "p1" 0
  = Raise (ValueError "Latitude must be between -90 and 90").
Proof. reflexivity. Qed.

Example review_rating_6 :
  Review.__init__ (PStr "Great") (PNum 6) (Some (<["id" := PStr "p1"]> ∅))
                  (Some (<["id" := PStr "u2"]> ∅)) PNone PNone "r1" 0
  = Raise (ValueError "Rating must be between 1 and 5").
Proof. reflexivity. Qed.

(** ** Python equality is an equivalence *)
Lemma py_eqb_refl x : py_eqb x x = true.
Proof.
  unfold py_eqb. destruct (num_of x) as [q|].
  - apply Qeq_bool_refl.
  - by apply bool_decide_eq_true.
Qed.

Lemma py_eqb_sym x y : py_eqb x y = py_eqb y x.
Proof.
  unfold py_eqb. destruct (num_of x) as [a|], (num_of y) as [b|]; try done.
  - destruct (Qeq_bool a b) eqn:E, (Qeq_bool b a) eqn:E'; try done.
    + apply Qeq_bool_sym in E. congruence.
    + apply Qeq_bool_sym in E'. congruence.
  - apply bool_decide_ext. split; congruence.
Qed.

Lemma py_eqb_trans x y z : py_eqb x y = true → py_eqb y z = true → py_eqb x z = true.
Proof.
  unfold py_eqb.
  destruct (num_of x) as [a|] eqn:Hx, (num_of y) as [b|] eqn:Hy, (num_of z) as [c|] eqn:Hz;
    try done.
  - apply Qeq_bool_trans.
  - intros ->%bool_decide_eq_true ->%bool_decide_eq_true. by apply bool_decide_eq_true.
Qed.

(** ** Lookups *)

Lemma filter_none {A} (P : A → Prop) `{∀ x, Decision (P x)} (l : list A) :
  (∀ x, x ∈ l → ¬ P x) → filter P l = [].
Proof.
  induction l as [|a l IH]; intros Hall; [done|].
  rewrite filter_cons. destruct (decide (P a)) as [Ha|_].
  - destruct (Hall a); [left | done].
  - apply IH. intros x Hx. apply Hall. by right.
Qed.

Lemma get_Some m d obj_id o :
  SQLAlchemyRepository.get m d obj_id = Some o →
  In o (table m d) ∧ py_eqb (getattr o "id") obj_id = true.
Proof. unfold SQLAlchemyRepository.get. apply find_some. Qed.

Lemma get_by_attribute_found m d attr v o :
  In o (table m d) → py_eqb (getattr o attr) v = true →
  is_Some (SQLAlchemyRepository.get_by_attribute m d attr v).
Proof.
  intros Hin Heq. unfold SQLAlchemyRepository.get_by_attribute.
  destruct (find _ _) eqn:E; [eauto|].
  eapply find_none in E; [|exact Hin]. simpl in E. congruence.
Qed.

(** ** Review creation *)

Section CreateReview.
Variables (review_data : dict) (uuid : string) (now : Z) (d : db).

Lemma create_review_place_not_found :
  SQLAlchemyRepository.get places d (dict_get review_data "place_id") = None →
  HBnBFacade.create_review review_data uuid now d
  = (d, Raise (ValueError "Place not found")).
Proof. intros H. unfold HBnBFacade.create_review. by rewrite H. Qed.

Lemma create_review_user_not_found place :
  SQLAlchemyRepository.get places d (dict_get review_data "place_id") = Some place →
  SQLAlchemyRepository.get users d (dict_get review_data "user_id") = None →
  HBnBFacade.create_review review_data uuid now d
  = (d, Raise (ValueError "User not found")).
Proof. intros H1 H2. unfold HBnBFacade.create_review. by rewrite H1, H2. Qed.

(** C3: when the listing and the user exist and the user's id equals the
    listing's [owner_id], [create_review] raises "Cannot review your own
    place" and the database (hence the review repository) is the one it was
    given. *)
Theorem create_review_own_place place user :
  SQLAlchemyRepository.get places d (dict_get review_data "place_id") = Some place →
  SQLAlchemyRepository.get users d (dict_get review_data "user_id") = Some user →
  py_eqb (getattr user "id") (getattr place "owner_id") = true →
  HBnBFacade.create_review review_data uuid now d
  = (d, Raise (ValueError "Cannot review your own place")).
Proof.
  intros Hp Hu Hown. unfold HBnBFacade.create_review. rewrite Hp, Hu.
  apply get_Some in Hu as [_ Hid].
  rewrite py_eqb_sym in Hown.
  by rewrite (py_eqb_trans _ _ _ Hown Hid).
Qed.

End CreateReview.

(** ** Deleting a place *)

(** C6: after [delete_place place_id] has returned [True], no review of the
    database has that [place_id]: [get_reviews_by_place] returns the empty
    list. *)
Theorem delete_place_cascades_reviews place_id d d' :
  HBnBFacade.delete_place place_id d = (d', Ok true) →
  HBnBFacade.get_reviews_by_place d' place_id = [].
Proof.
  unfold HBnBFacade.delete_place, SQLAlchemyRepository.delete.
  destruct (SQLAlchemyRepository.get places d place_id) as [o|] eqn:Hget; [|done].
  apply get_Some in Hget as [_ Hid]. simpl. intros [= <-].
  unfold HBnBFacade.get_reviews_by_place, get_reviews_by_place,
    SQLAlchemyRepository.get_all_by_attribute. simpl.
  apply filter_none. intros r [Hne _]%list_elem_of_filter Heq.
  rewrite py_eqb_sym in Hid.
  by rewrite (py_eqb_trans _ _ _ Heq Hid) in Hne.
Qed.

(** ** User creation *)

Section CreateUser.
Variable generate_password_hash : pyval → string.

Lemma User_init_email first_name last_name email password is_admin uuid now user :
  User.__init__ generate_password_hash first_name last_name email password is_admin uuid now
  = Ok user →
  getattr user "email" = email.
Proof.
  unfold User.__init__. destruct (User._validate _); [|done]. simpl.
  intros [= <-]. by destruct (truthy password).
Qed.

Lemma create_user_registered user_data uuid now d existing :
  In existing (users_rows d) →
  py_eqb (getattr existing "email") (dict_get user_data "email") = true →
  HBnBFacade.create_user generate_password_hash user_data uuid now d
  = (d, Raise (ValueError "Email already registered")).
Proof.
  intros Hin Heq. unfold HBnBFacade.create_user.
  by destruct (get_by_attribute_found users d "email" _ _ Hin Heq) as [u ->].
Qed.

(** A call either leaves the database as it was or appends one user whose
    email no stored user had. *)
Lemma create_user_effect user_data uuid now d :
  let d' := (HBnBFacade.create_user generate_password_hash user_data uuid now d).1 in
  d' = d ∨
  ∃ user, d' = set_table users (users_rows d ++ [user]) d
          ∧ getattr user "email" = dict_get user_data "email"
          ∧ SQLAlchemyRepository.get_by_attribute users d "email"
              (dict_get user_data "email") = None.
Proof.
  unfold HBnBFacade.create_user.
  destruct (SQLAlchemyRepository.get_by_attribute _ _ _ _) eqn:Hnone; [by left|].
  destruct (User.__init__ _ _ _ _ _ _ _ _) as [user|] eqn:Hinit; [|by left].
  unfold SQLAlchemyRepository.add, session_insert.
  destruct (integrity_violation _ _ _); [by left|].
  right. exists user. simpl. eauto using User_init_email.
Qed.

Lemma create_user_keeps_email_unique E user_data uuid now d :
  (length (SQLAlchemyRepository.get_all_by_attribute users d "email" E) ≤ 1)%nat →
  (length (SQLAlchemyRepository.get_all_by_attribute users
            (HBnBFacade.create_user generate_password_hash user_data uuid now d).1
            "email" E) ≤ 1)%nat.
Proof.
  intros Hle.
  destruct (create_user_effect user_data uuid now d) as [->|(user & -> & Hemail & Hnone)];
    [done|].
  unfold SQLAlchemyRepository.get_all_by_attribute in *. simpl in *.
  rewrite filter_app, length_app, filter_cons, filter_nil.
  destruct (decide _) as [HE|_]; simpl; [|lia].
  rewrite filter_none; [simpl; lia|].
  intros u Hu%list_elem_of_In Hu'.
  unfold SQLAlchemyRepository.get_by_attribute in Hnone.
  eapply find_none in Hnone; [|exact Hu]. simpl in Hnone.
  rewrite Hemail, py_eqb_sym in HE.
  by rewrite (py_eqb_trans _ _ _ Hu' HE) in Hnone.
Qed.

(** C4: let [d'] be the database after any sequence of [create_user] calls
    from a database with at most one account of email [E].  If [d'] holds an
    account with email [E], a further [create_user] with email [E] raises
    "Email already registered" and returns [d'] itself; and [d'] holds at
    most one account with email [E]. *)
Theorem create_user_duplicate_email E calls user_data uuid now d :
  (length (SQLAlchemyRepository.get_all_by_attribute users d "email" E) ≤ 1)%nat →
  py_eqb (dict_get user_data "email") E = true →
  let d' := create_users generate_password_hash calls d in
  (SQLAlchemyRepository.get_all_by_attribute users d' "email" E ≠ [] →
   HBnBFacade.create_user generate_password_hash user_data uuid now d'
   = (d', Raise (ValueError "Email already registered")))
  ∧ (length (SQLAlchemyRepository.get_all_by_attribute users d' "email" E) ≤ 1)%nat.
Proof.
  intros Hle HE d'. split.
  - destruct (SQLAlchemyRepository.get_all_by_attribute users d' "email" E)
      as [|existing rest] eqn:Hall; [done|]. intros _.
    assert (existing ∈ SQLAlchemyRepository.get_all_by_attribute users d' "email" E)
      as [Heq Hin%list_elem_of_In]%list_elem_of_filter by (rewrite Hall; left).
    apply (create_user_registered _ _ _ _ existing Hin).
    rewrite py_eqb_sym in HE. exact (py_eqb_trans _ _ _ Heq HE).
  - subst d'. revert d Hle. unfold create_users.
    induction calls as [|[[data id] t] calls IH]; intros d Hle; [done|].
    simpl. apply IH. by apply create_user_keeps_email_unique.
Qed.

End CreateUser.

(** ** Place creation *)

Lemma Qle_bool_false a b : Qle_bool a b = false ↔ (b < a)%Q.
Proof.
  split.
  - intros H. apply Qnot_le_lt. intros Hle%Qle_bool_iff. congruence.
  - intros Hlt. destruct (Qle_bool a b) eqn:E; [|done].
    apply Qle_bool_iff in E. by apply Qlt_not_le in Hlt.
Qed.








(** Whatever [create_place] raises, it returns the database it was given. *)
Lemma create_place_raise_keeps_db place_data uuid now d d' e :
  HBnBFacade.create_place place_data uuid now d = (d', Raise e) → d' = d.
Proof.
  unfold HBnBFacade.create_place, HBnBFacade.add_place, SQLAlchemyRepository.add,
    session_insert.
  destruct (SQLAlchemyRepository.get _ _ _); [|by intros [= <-]].
  destruct (Place.__init__ _ _ _ _ _ _ _ _ _); [|by intros [= <-]].
  destruct (py_iter _); [|by intros [= <-]].
  destruct (integrity_violation _ _ _); [by intros [= <-]|done].
Qed.



(** ** Attribute updates and commits *)



Lemma table_set_table m rows d : table m (set_table m rows d) = rows.
Proof. by destruct m. Qed.

Lemma is_row_refl o : is_row o o = true.
Proof. apply py_eqb_refl. Qed.

(** A commit of a loaded instance either fails on a constraint and keeps the
    database, or stores the instance: every column but [updated_at] as the
    instance has it, and [updated_at] as assigned or as [onupdate] sets it. *)
Lemma session_update_cases m now old new d :
  In old (table m d) →
  match session_update m now old new d with
  | (d', Ok o') =>
      In o' (table m d')
      ∧ (∀ k, k ≠ "updated_at" → o' !! k = new !! k)
      ∧ (o' !! "updated_at" = new !! "updated_at"
         ∨ o' !! "updated_at" = Some (PTime now))
  | (d', Raise e) => d' = d ∧ ∃ c, e = IntegrityError c
  end.
Proof.
  intros Hin. unfold session_update.
  destruct (decide (new = old)) as [->|Hne]; [by auto|].
  destruct (integrity_violation _ _ _); [by eauto|].
  rewrite table_set_table. split; [|split].
  - apply in_map_iff. exists old. by rewrite is_row_refl.
  - intros k Hk. case_decide; [|done]. unfold setattr. by rewrite lookup_insert_ne.
  - case_decide; [right|by left]. unfold setattr. by rewrite lookup_insert_eq.
Qed.

(** [save] of a loaded instance: as the commit, with [updated_at] refreshed. *)
Lemma save_loaded_cases m now old self d :
  In old (table m d) →
  match save m now (Some old) self d with
  | (d', Ok o') =>
      In o' (table m d')
      ∧ (∀ k, k ≠ "updated_at" → o' !! k = self !! k)
      ∧ o' !! "updated_at" = Some (PTime now)
  | (d', Raise e) => d' = d ∧ ∃ c, e = IntegrityError c
  end.
Proof.
  intros Hin. unfold save.
  pose proof (session_update_cases m now old (setattr self "updated_at" (PTime now)) d Hin)
    as H.
  destruct (session_update _ _ _ _ _) as [d' [o'|e]]; [|done].
  destruct H as (H1 & H2 & H3). split; [done|]. split.
  - intros k Hk. rewrite H2 by done. unfold setattr. by rewrite lookup_insert_ne.
  - destruct H3 as [H3|H3]; [|done]. rewrite H3. unfold setattr. by rewrite lookup_insert_eq.
Qed.

(** ** User update *)

Section UpdateUser.
Variable generate_password_hash : pyval → string.





End UpdateUser.

(** ** Review update *)

Lemma apply_review_data_getattr (review : obj) (review_data : dict) k :
  getattr (HBnBFacade.apply_review_data review review_data) k =
  if bool_decide (k = "text" ∨ k = "rating")
  then dict_get_default review_data k (getattr review k)
  else getattr review k.
Proof.
  unfold HBnBFacade.apply_review_data, dict_has, dict_get, dict_get_default,
    setattr, getattr. simpl.
  destruct (review_data !! "text") as [t|] eqn:Ht,
           (review_data !! "rating") as [r|] eqn:Hr; simpl;
    rewrite ?(bool_decide_eq_true_2 (is_Some (Some _))) by eauto;
    rewrite ?(bool_decide_eq_false_2 (is_Some None)) by (by intros [? ?]);
    (case_bool_decide as Hk; [destruct Hk as [-> | ->]|]);
    rewrite ?Ht, ?Hr; simpl;
    rewrite ?lookup_insert_eq, ?lookup_insert_ne by (try done; intros <-; tauto);
    rewrite ?lookup_insert_eq, ?lookup_insert_ne by (try done; intros <-; tauto);
    done.
Qed.

(** C10: [update_review] on an existing review either fails at the commit
    and changes nothing, or returns the stored review with [text] and
    [rating] taken from the payload where it has them and with every other
    attribute, [id], [user_id] and [place_id] among them, as before, whatever
    the payload supplies for them; only the timestamp [updated_at] is
    refreshed besides.  An id that names no review gives [None]. *)
Theorem update_review_touches_text_and_rating review_id review_data now d :
  match SQLAlchemyRepository.get reviews d review_id with
  | None => HBnBFacade.update_review review_id review_data now d = (d, Ok None)
  | Some review =>
      match HBnBFacade.update_review review_id review_data now d with
      | (d', Ok (Some review')) =>
          getattr review' "id" = getattr review "id"
          ∧ getattr review' "user_id" = getattr review "user_id"
          ∧ getattr review' "place_id" = getattr review "place_id"
          ∧ (∀ k, k ≠ "text" → k ≠ "rating" → k ≠ "updated_at" →
               getattr review' k = getattr review k)
          ∧ getattr review' "text"
            = dict_get_default review_data "text" (getattr review "text")
          ∧ getattr review' "rating"
            = dict_get_default review_data "rating" (getattr review "rating")
          ∧ In review' (reviews_rows d')
      | (d', Ok None) => False
      | (d', Raise e) => d' = d ∧ ∃ c, e = IntegrityError c
      end
  end.
Proof.
  unfold HBnBFacade.update_review.
  destruct (SQLAlchemyRepository.get reviews d review_id) as [review|] eqn:Hget; [|done].
  apply get_Some in Hget as [Hin _].
  pose proof (save_loaded_cases reviews now review
                (HBnBFacade.apply_review_data review review_data) d Hin) as Hsave.
  destruct (save _ _ _ _ _) as [d' [review'|e]]; [|done].
  destruct Hsave as (Hrow & Hcols & _).
  assert (∀ k, k ≠ "updated_at" →
            getattr review' k
            = getattr (HBnBFacade.apply_review_data review review_data) k) as Hget.
  { intros k Hk. unfold getattr. by rewrite Hcols. }
  repeat split; try done.
  1-3, 5-6: by rewrite Hget, apply_review_data_getattr.
  intros k Ht Hr Hu. rewrite Hget, apply_review_data_getattr by done.
  by rewrite bool_decide_eq_false_2 by (intros [?|?]; done).
Qed.

(** ** Repository update *)









(** ** Serialisation of a user *)

(** C9: whenever [User.to_dict] returns a dictionary, it has no [password]
    key, whatever the attributes of the user are; and it returns one unless
    a timestamp attribute holds a truthy value that is no [datetime], in
    which case [isoformat] is missing and [AttributeError] is raised. *)
Theorem to_dict_omits_password (isoformat : Z → string) (self : obj) :
  match User.to_dict isoformat self with
  | Ok out => out !! "password" = None ∧ dict_has out "password" = false
  | Raise e =>
      e = AttributeError
      ∧ ¬ (datetime_or_falsy (getattr self "created_at")
           ∧ datetime_or_falsy (getattr self "updated_at"))
  end.
Proof.
  unfold User.to_dict, User.iso_or_none, datetime_or_falsy.
  destruct (truthy (getattr self "created_at")) eqn:Hc;
    [destruct (getattr self "created_at") eqn:Ec|];
    (destruct (truthy (getattr self "updated_at")) eqn:Hu;
      [destruct (getattr self "updated_at") eqn:Eu|]); simpl;
    try (split; [reflexivity|];
         intros [[?|[? ?]] [?|[? ?]]]; congruence);
    split; by simplify_map_eq.
Qed.

(** ** Uniqueness of reviews and of amenity names *)

Lemma raise_if_error c msg e : raise_if c msg = Raise e → e = ValueError msg.
Proof. unfold raise_if. destruct c; congruence. Qed.

Lemma py_lt_error v y e : py_lt v y = Raise e → e = TypeError.
Proof. unfold py_lt. destruct (num_of v); congruence. Qed.

Lemma py_gt_error v y e : py_gt v y = Raise e → e = TypeError.
Proof. unfold py_gt. destruct (num_of v); congruence. Qed.

(** [Review._validate] raises a [ValueError] only with its own messages. *)
Lemma Review_validate_errors self msg :
  Review._validate self = Raise (ValueError msg) →
  msg ∈ ["Review text is required"; "Rating must be between 1 and 5";
         "Place is required"; "User is required"].
Proof.
  unfold Review._validate. intros H. apply list_elem_of_In. simpl.
  destruct (raise_if (negb (truthy (getattr self "text"))) _) eqn:E1; simpl in H;
    [|apply raise_if_error in E1; simplify_eq; tauto].
  match type of H with (mbind _ ?r) = _ => destruct r as [bad|e] eqn:E2 end; simpl in H.
  2: { exfalso. destruct (is_none _); [done|].
       destruct (py_lt _ _) as [[]|] eqn:E3; simpl in E2;
         [done|apply py_gt_error in E2|apply py_lt_error in E3]; congruence. }
  destruct (raise_if bad _) eqn:E3; simpl in H;
    [|apply raise_if_error in E3; simplify_eq; tauto].
  destruct (raise_if (negb (truthy (getattr self "place_id"))) _) eqn:E4; simpl in H;
    [|apply raise_if_error in E4; simplify_eq; tauto].
  apply raise_if_error in H. simplify_eq. tauto.
Qed.

(** The facade has no error of its own for a second review of the same
    place by the same user: whatever [ValueError] [create_review] raises
    carries one of the seven messages of [create_review_errors], and it
    leaves the database as it was. *)
Lemma create_review_value_errors review_data uuid now d d' msg :
  HBnBFacade.create_review review_data uuid now d = (d', Raise (ValueError msg)) →
  msg ∈ create_review_errors ∧ d' = d.
Proof.
  unfold HBnBFacade.create_review, create_review_errors.
  destruct (SQLAlchemyRepository.get places d _) as [place|];
    [|intros [= <- <-]; split; [apply list_elem_of_In; simpl; tauto|done]].
  destruct (SQLAlchemyRepository.get users d _) as [user|];
    [|intros [= <- <-]; split; [apply list_elem_of_In; simpl; tauto|done]].
  destruct (py_eqb _ _);
    [intros [= <- <-]; split; [apply list_elem_of_In; simpl; tauto|done]|].
  destruct (Review.__init__ _ _ _ _ _ _ _ _) as [review|e] eqn:Hinit.
  - unfold SQLAlchemyRepository.add, session_insert.
    by destruct (integrity_violation _ _ _).
  - intros [= <- ->]. split; [|done].
    unfold Review.__init__ in Hinit.
    match type of Hinit with (mbind _ (Review._validate ?s)) = _ =>
      destruct (Review._validate s) eqn:Hv end; simpl in Hinit; [done|].
    simplify_eq. apply Review_validate_errors in Hv.
    apply list_elem_of_In in Hv. apply list_elem_of_In. simpl in *. tauto.
Qed.

(** C1 on the code: in the scenario, where Jane has reviewed the place, her
    second review passes the three guards of the facade, which has no fourth:
    with a valid text and rating it is stopped only by the database, whose
    commit raises [IntegrityError] on the unique constraint of reviews; with
    an empty text it is reported as a validation error.  Neither call stores
    a review. *)
Theorem create_review_second_review_reaches_database :
  HBnBFacade.create_review (review_data_of "u2" "Once more" 4) "r2" 15 db_review
  = (db_review,
     Raise (IntegrityError "UNIQUE constraint failed: reviews.user_id, place_id"))
  ∧ HBnBFacade.create_review (review_data_of "u2" "" 4) "r2" 15 db_review
    = (db_review, Raise (ValueError "Review text is required"))
  ∧ length (HBnBFacade.get_reviews_by_place db_review (PStr "p1")) = 1%nat.
Proof. repeat split; vm_compute; reflexivity. Qed.

(** The endpoint does look for an earlier review of the caller before it
    calls the facade. *)
Lemma ReviewList_post_second_review payload current_user_id uuid now d place earlier :
  HBnBFacade.get_place d (dict_get (<["user_id" := current_user_id]> payload) "place_id")
  = Some place →
  py_eqb (getattr place "owner_id") current_user_id = false →
  In earlier (HBnBFacade.get_reviews_by_place d
                (dict_get (<["user_id" := current_user_id]> payload) "place_id")) →
  py_eqb (getattr earlier "user_id") current_user_id = true →
  ReviewList_post payload current_user_id uuid now d
  = (d, Abort 400 "You have already reviewed this place").
Proof.
  intros Hplace Hown Hin Hby. unfold ReviewList_post. rewrite Hplace, Hown.
  assert (existsb (λ review, py_eqb (getattr review "user_id") current_user_id)
            (HBnBFacade.get_reviews_by_place d
               (dict_get (<["user_id" := current_user_id]> payload) "place_id")) = true)
    as ->; [|done].
  apply existsb_exists. eauto.
Qed.

(** [create_amenity] raises a [ValueError] only from [Amenity._validate]. *)
Lemma create_amenity_value_errors amenity_data uuid now d d' msg :
  HBnBFacade.create_amenity amenity_data uuid now d = (d', Raise (ValueError msg)) →
  msg = "Amenity name is required and must be <= 50 characters" ∧ d' = d.
Proof.
  unfold HBnBFacade.create_amenity.
  destruct (Amenity.__init__ _ _ _ _) as [amenity|e] eqn:Hinit.
  - unfold SQLAlchemyRepository.add, session_insert.
    by destruct (integrity_violation _ _ _).
  - intros [= <- ->]. split; [|done].
    unfold Amenity.__init__, Amenity._validate in Hinit.
    destruct (missing_or_longer _ _) as [bad|e] eqn:Hm; simpl in Hinit.
    + destruct (raise_if bad _) eqn:Hr; simpl in Hinit; [done|].
      apply raise_if_error in Hr. congruence.
    + unfold missing_or_longer in Hm. destruct (negb _); [done|].
      destruct (getattr _ _); simpl in Hm; congruence.
Qed.

(** C2 on the code: in the scenario, where the amenity "WiFi" exists,
    creating "WiFi" again finds no check in the facade and is stopped only by
    the database, whose commit raises [IntegrityError] on the unique name;
    [get_amenity_by_name], which would find the first one, is not called. *)
Theorem create_amenity_second_name_reaches_database :
  HBnBFacade.create_amenity wifi_data "a2" 16 db_wifi
  = (db_wifi, Raise (IntegrityError "UNIQUE constraint failed: amenities.name"))
  ∧ is_Some (get_amenity_by_name db_wifi (PStr "WiFi")).
Proof. split; vm_compute; eauto. Qed.

(** ** The properties on the scenario *)

Example scenario_builds :
  length (users_rows db_wifi) = 2%nat ∧ length (places_rows db_wifi) = 1%nat
  ∧ length (reviews_rows db_wifi) = 1%nat ∧ length (amenities_rows db_wifi) = 1%nat.
Proof. vm_compute. done. Qed.

Example john_row_email : getattr john_row "email" = PStr "john@example.com".
Proof. vm_compute. reflexivity. Qed.

(** John reviews his own place. *)
Lemma create_review_own_place_witness :
  HBnBFacade.create_review (review_data_of "u1" "Great place!" 5) "r2" 15 db_place
  = (db_place, Raise (ValueError "Cannot review your own place")).
Proof.
  apply (create_review_own_place _ _ _ _
           (default ∅ (SQLAlchemyRepository.get places db_place (PStr "p1"))) john_row);
    vm_compute; reflexivity.
Defined.

(** John registers twice after John and Jane have registered. *)
Lemma create_user_duplicate_email_witness :
  let d' := create_users sample_hash [(john_data, "u1", 10%Z); (jane_data, "u2", 11%Z)]
              empty_db in
  HBnBFacade.create_user sample_hash john_data "u3" 12 d'
  = (d', Raise (ValueError "Email already registered"))
  ∧ length (SQLAlchemyRepository.get_all_by_attribute users d' "email"
              (PStr "john@example.com")) = 1%nat.
Proof.
  intros d'.
  destruct (create_user_duplicate_email sample_hash (PStr "john@example.com")
              [(john_data, "u1", 10%Z); (jane_data, "u2", 11%Z)] john_data "u3" 12 empty_db)
    as [Hdup _].
  - simpl. lia.
  - reflexivity.
  - split; [|vm_compute; reflexivity]. apply Hdup. vm_compute. discriminate.
Defined.


(** Deleting the reviewed place. *)
Lemma delete_place_cascades_reviews_witness :
  length (HBnBFacade.get_reviews_by_place db_review (PStr "p1")) = 1%nat
  ∧ HBnBFacade.get_reviews_by_place (HBnBFacade.delete_place (PStr "p1") db_review).1
      (PStr "p1") = [].
Proof.
  split; [vm_compute; reflexivity|].
  apply (delete_place_cascades_reviews (PStr "p1") db_review).
  vm_compute. reflexivity.
Defined.

(** An update of Jane that supplies a first name and a password, and an
    unknown key that is ignored. *)
Example update_user_scenario :
  match HBnBFacade.update_user sample_hash (PStr "u2")
          (<["first_name" := PStr "Janet"]> (<["password" := PStr "s3cret"]>
           (<["nickname" := PStr "jj"]> ∅))) 20 db_users with
  | (d', Ok (Some user')) =>
      getattr user' "first_name" = PStr "Janet"
      ∧ getattr user' "password" = PStr "$2b$12$s3cret"
      ∧ getattr user' "email" = PStr "jane@example.com"
      ∧ getattr user' "nickname" = PNone
      ∧ getattr user' "updated_at" = PTime 20
      ∧ SQLAlchemyRepository.get users d' (PStr "u2") = Some user'
  | _ => False
  end.
Proof. vm_compute. repeat split; reflexivity. Qed.

(** Jane may keep her email; she may not take John's. *)
Example update_user_email_scenario :
  (HBnBFacade.update_user sample_hash (PStr "u2")
     (<["email" := PStr "john@example.com"]> ∅) 20 db_users).2
  = Raise (ValueError "Email already registered")
  ∧ updated_at_of (HBnBFacade.update_user sample_hash (PStr "u2")
                     (<["email" := PStr "jane@example.com"]> ∅) 20 db_users).2
    = Some (PTime 20).
Proof. split; vm_compute; reflexivity. Qed.

(** An update of the review that also supplies [user_id], [place_id] and [id]. *)
Example update_review_scenario :
  match HBnBFacade.update_review (PStr "r1")
          (<["text" := PStr "Good"]> (<["rating" := PNum 4]>
           (<["user_id" := PStr "u1"]> (<["place_id" := PStr "p9"]>
           (<["id" := PStr "r9"]> ∅))))) 20 db_review with
  | (d', Ok (Some review')) =>
      getattr review' "text" = PStr "Good"
      ∧ getattr review' "rating" = PNum 4
      ∧ getattr review' "user_id" = PStr "u2"
      ∧ getattr review' "place_id" = PStr "p1"
      ∧ getattr review' "id" = PStr "r1"
      ∧ SQLAlchemyRepository.get reviews d' (PStr "r1") = Some review'
  | _ => False
  end.
Proof. vm_compute. repeat split; reflexivity. Qed.

(** The endpoint refuses Jane's second review before the facade is called. *)
Example ReviewList_post_scenario :
  ReviewList_post (review_data_of "anyone" "Once more" 4) (PStr "u2") "r2" 15 db_review
  = (db_review, Abort 400 "You have already reviewed this place").
Proof. vm_compute. reflexivity. Qed.

Example to_dict_scenario :
  match User.to_dict (λ _, "2024-01-01T00:00:00") john_row with
  | Ok out =>
      out !! "email" = Some (PStr "john@example.com")
      ∧ out !! "created_at" = Some (PStr "2024-01-01T00:00:00")
      ∧ out !! "password" = None
  | Raise _ => False
  end.
Proof. vm_compute. repeat split; reflexivity. Qed.
